(** * volatility3 [windows.netscan]: the NetScan plugin

  A shallow embedding of
  [volatility/framework/plugins/windows/netscan.py] and the properties
  of its layout selection, pool constraints and record generator.

  Python values that reach the output grid are values of [Py.val];
  a call that can raise returns a [Py.result]; the lazy generator is
  the list of the events its consumer sees, in order (debug log lines,
  yielded rows and, last, the exception that ends it if one does) over
  the finite sequence of candidates a scan of one memory image gives. *)

From Stdlib Require Import ZArith String List.
From stdpp Require Import base decidable option list strings pretty gmap.

Local Open Scope string_scope.
Local Open Scope Z_scope.

(** ** Python values, truthiness and exceptions *)

Module Py.

(** The exceptions [netscan.py] raises itself or runs into. *)
Inductive exn : Type :=
| TypeError (msg : string)
| NameError (name : string)
| UnboundLocalError (name : string)
| AttributeError (name : string).

Inductive result (A : Type) : Type :=
| Return (a : A)
| Raise (e : exn).
Arguments Return {A} a.
Arguments Raise {A} e.

Global Instance result_ret : MRet result := @Return.

Global Instance result_bind : MBind result := fun A B k m =>
  match m with
  | Return a => k a
  | Raise e => Raise e
  end.

(** The value of a call that returned, [None] for one that raised. *)
Definition value {A : Type} (m : result A) : option A :=
  match m with
  | Return a => Some a
  | Raise _ => None
  end.

(** The values the generator puts in a row: [None], [int], [str],
    [bool], [format_hints.Hex] (an [int] subclass), [datetime.datetime]
    (as its timestamp) and [renderers.UnreadableValue()]. *)
Inductive val : Type :=
| PyNone
| PyInt (z : Z)
| PyStr (s : string)
| PyBool (b : bool)
| Hex (z : Z)
| Datetime (t : Z)
| UnreadableValue.

Global Instance val_eq_dec : EqDecision val.
Proof. solve_decision. Defined.

(** [bool(v)]: [None], [0], [""] and [False] are falsy; a datetime and
    an absent-value object (no [__bool__], no [__len__]) are truthy. *)
Definition truthy (v : val) : bool :=
  match v with
  | PyNone => false
  | PyInt z => negb (z =? 0)
  | PyStr s => negb (s =? "")%string
  | PyBool b => b
  | Hex z => negb (z =? 0)
  | Datetime _ => true
  | UnreadableValue => true
  end.

(** [a or b] *)
Definition or (a b : val) : val := if truthy a then a else b.

(** [v == n] for an [int] [n]: [bool] and [Hex] are [int] subclasses,
    everything else compares unequal to an [int]. *)
Definition eq_int (v : val) (n : Z) : bool :=
  match v with
  | PyInt z | Hex z => z =? n
  | PyBool b => (if b then 1 else 0) =? n
  | _ => false
  end.

(** [str(n)] of an [int]: its decimal digits, [-] in front of a negative. *)
Definition str (n : Z) : string := pretty n.

End Py.

(** ** What the plugin reads from its collaborators

    The framework modules [netscan.py] imports ([symbols], [layers],
    [poolscanner], [intermed], the [network] extension classes) are
    outside the plugin's file. Their objects appear here by what the
    plugin observes of them: the fields it reads and the values its
    calls give back. *)

(** [_DBGKD_GET_VERSION64], read at the address of [KdVersionBlock]. *)
Record DBGKD_GET_VERSION64 : Type := {
  MajorVersion : Z;
  MinorVersion : Z
}.

(** [_KUSER_SHARED_DATA], read at the fixed address [kuser_addr]. *)
Record KUSER_SHARED_DATA : Type := {
  NtMajorVersion : Z;
  NtMinorVersion : Z
}.

(** An object the pool scanner hands over. The three [isinstance_*]
    fields are the answers of [isinstance(netw_obj, network._X)];
    [is_valid] is the outcome of the call [netw_obj.is_valid()], which
    returns a boolean on a network object and raises when the object has
    no such method ([AttributeError]) or the check itself fails; the
    remaining fields are the members and accessor results the generator
    reads once it has classified the object. *)
Record netw_obj : Type := {
  vol_offset : Z;
  isinstance_UDP_ENDPOINT : bool;
  isinstance_TCP_ENDPOINT : bool;
  isinstance_TCP_LISTENER : bool;
  is_valid : Py.result bool;
  Port : Z;
  LocalPort : Z;
  RemotePort : Z;
  State : Z;
  get_address_family : Py.val;
  get_local_address : Py.val;
  get_remote_address : Py.val;
  get_owner_pid : Py.val;
  get_owner_procname : Py.val;
  get_create_time : Py.val;
  dual_stack_sockets : list (string * Py.val * Py.val)
}.

(** The same object with other owner accessors' results. *)
Definition set_owner (o : netw_obj) (pid procname create_time : Py.val) : netw_obj :=
  {| vol_offset := vol_offset o;
     isinstance_UDP_ENDPOINT := isinstance_UDP_ENDPOINT o;
     isinstance_TCP_ENDPOINT := isinstance_TCP_ENDPOINT o;
     isinstance_TCP_LISTENER := isinstance_TCP_LISTENER o;
     is_valid := is_valid o;
     Port := Port o;
     LocalPort := LocalPort o;
     RemotePort := RemotePort o;
     State := State o;
     get_address_family := get_address_family o;
     get_local_address := get_local_address o;
     get_remote_address := get_remote_address o;
     get_owner_pid := pid;
     get_owner_procname := procname;
     get_create_time := create_time;
     dual_stack_sockets := dual_stack_sockets o |}.

(** Modelled from the spec: [dual_stack_sockets] is a method of
    [network._TCP_LISTENER], outside the plugin's file. Per the spec a
    dual-stack object stands for two sockets on one port, one per address
    family; it is recognised here by the method yielding a [v4] socket
    and then a [v6] socket. *)
Definition dual_stack (o : netw_obj) : Prop :=
  (fun sock : string * Py.val * Py.val => sock.1.1) <$> dual_stack_sockets o
  = ["v4"; "v6"].

(** [poolscanner.PoolConstraint(tag, type_name, size, page_type)];
    [size] is the pair (lower bound, upper bound), [None] for no bound. *)
Module poolscanner.

Record PoolConstraint : Type := {
  tag : list Byte.byte;
  type_name : string;
  size : Z * option Z;
  page_type : Z
}.

End poolscanner.

(** [self] of a plugin run: its context and configuration, by the values
    its lookups and reads give once they have succeeded (a symbol or a
    type the framework cannot resolve ends the run inside the framework,
    before the plugin sees a value). *)
Record plugin : Type := {
  (* symbols.symbol_table_is_64bit(self.context, self.config['nt_symbols']) *)
  symbol_table_is_64bit : bool;
  (* isinstance(virtual_layer, layers.intel.Intel) *)
  layer_isinstance_Intel : bool;
  (* virtual_layer.bits_per_register *)
  bits_per_register : Z;
  (* ntkrnlmp.get_symbol("KdVersionBlock").address *)
  KdVersionBlock : Z;
  (* ntkrnlmp.object("_DBGKD_GET_VERSION64", offset = ...) *)
  object_DBGKD_GET_VERSION64 : Z -> DBGKD_GET_VERSION64;
  (* ntkrnlmp.object("_KUSER_SHARED_DATA", offset = ..., absolute = True) *)
  object_KUSER_SHARED_DATA : Z -> KUSER_SHARED_DATA;
  (* context.symbol_space.get_type(name).size *)
  get_type_size : string -> Z;
  (* intermed.IntermediateSymbolTable.create(..., symbol_filename, class_types, ...) *)
  IntermediateSymbolTable_create : string -> gset string -> string;
  (* poolscanner.PoolScanner.generate_pool_scan(..., constraints):
     triples (constraint, mem_object, header) *)
  generate_pool_scan : list poolscanner.PoolConstraint -> list (poolscanner.PoolConstraint * netw_obj * Z);
  (* self.config.get('include-corrupt', None) *)
  config_include_corrupt : Py.val
}.

(** The columns of the [TreeGrid] that [run] declares, one field each. *)
Record row : Type := {
  col_Offset : Py.val;
  col_Proto : Py.val;
  col_LocalAddr : Py.val;
  col_LocalPort : Py.val;
  col_ForeignAddr : Py.val;
  col_ForeignPort : Py.val;
  col_State : Py.val;
  col_PID : Py.val;
  col_Owner : Py.val;
  col_Created : Py.val
}.

(** Two rows that agree everywhere but in protocol and addresses. *)
Definition same_socket_fields (r1 r2 : row) : Prop :=
  col_Offset r1 = col_Offset r2 /\
  col_LocalPort r1 = col_LocalPort r2 /\
  col_ForeignPort r1 = col_ForeignPort r2 /\
  col_State r1 = col_State r2 /\
  col_PID r1 = col_PID r2 /\
  col_Owner r1 = col_Owner r2 /\
  col_Created r1 = col_Created r2.

(** The [vollog.debug] lines of the generator, by what they report. *)
Inductive log_line : Type :=
| Found_netw_obj (offset : Z)
| Found_UDP_ENDPOINT (offset : Z)
| Found_TCP_ENDPOINT (offset : Z)
| Found_TCP_LISTENER (offset : Z)
| Found_unsure_of_type (offset : Z).

(** What the consumer of the generator sees, in order: a logged line, a
    yielded [(level, row)], or the exception that ends the generator. *)
Inductive event : Type :=
| Log (l : log_line)
| Yield (level : Z) (r : row)
| Raises (e : Py.exn).

(** The rows of a run, in the order they are yielded. *)
Definition yielded (tr : list event) : list row :=
  omap (fun e => match e with Yield _ r => Some r | _ => None end) tr.

(** A bytes literal [b'...'] of ASCII characters. *)
Definition b (s : string) : list Byte.byte := list_byte_of_string s.

(** ** Sample images and candidates

    Concrete runs used to exercise the theorems below: the framework
    constants at their Windows values, three kernels, and one candidate
    of each shape. *)

Module Sample.

Definition BANG : string := "!".
Definition NONPAGED : Z := 2.
Definition FREE : Z := 4.
Definition AF_INET : Z := 2.
Definition AF_INET6 : Z := 0x17.

Definition TCP_STATE_ENUM : gmap Z string :=
  list_to_map
    [ (0, "CLOSED"); (1, "LISTENING"); (2, "SYN_SENT"); (3, "SYN_RCVD");
      (4, "ESTABLISHED"); (5, "FIN_WAIT1"); (6, "FIN_WAIT2"); (7, "CLOSE_WAIT");
      (8, "CLOSING"); (9, "LAST_ACK"); (12, "TIME_WAIT"); (13, "DELETE_TCB") ].

Definition class_types : gset string :=
  list_to_set [ "_TCP_LISTENER"; "_TCP_ENDPOINT"; "_UDP_ENDPOINT" ].

Definition win10_x64_extra : string := "_LOCAL_ADDRESS_WIN10_UDP".

Definition udp_dual_stack : netw_obj :=
  {| vol_offset := 0x7e50a010;
     isinstance_UDP_ENDPOINT := true;
     isinstance_TCP_ENDPOINT := false;
     isinstance_TCP_LISTENER := true;
     is_valid := Py.Return true;
     Port := 5355; LocalPort := 0; RemotePort := 0; State := 0;
     get_address_family := Py.PyInt 0x17;
     get_local_address := Py.PyNone;
     get_remote_address := Py.PyNone;
     get_owner_pid := Py.PyInt 1044;
     get_owner_procname := Py.PyStr "svchost.exe";
     get_create_time := Py.Datetime 1577873495;
     dual_stack_sockets :=
       [ ("v4", Py.PyStr "0.0.0.0", Py.PyStr "0.0.0.0");
         ("v6", Py.PyStr "::", Py.PyStr "::") ] |}.

Definition tcp_endpoint : netw_obj :=
  {| vol_offset := 0x7d62b010;
     isinstance_UDP_ENDPOINT := false;
     isinstance_TCP_ENDPOINT := true;
     isinstance_TCP_LISTENER := true;
     is_valid := Py.Return true;
     Port := 0; LocalPort := 49170; RemotePort := 443; State := 4;
     get_address_family := Py.PyInt 2;
     get_local_address := Py.PyStr "10.0.2.15";
     get_remote_address := Py.PyStr "93.184.216.34";
     get_owner_pid := Py.PyInt 0;
     get_owner_procname := Py.PyStr "";
     get_create_time := Py.PyNone;
     dual_stack_sockets := [] |}.

(** The same endpoint with overwritten state and address family. *)
Definition tcp_endpoint_corrupt : netw_obj :=
  {| vol_offset := 0x7d62b010;
     isinstance_UDP_ENDPOINT := false;
     isinstance_TCP_ENDPOINT := true;
     isinstance_TCP_LISTENER := true;
     is_valid := Py.Return false;
     Port := 0; LocalPort := 49170; RemotePort := 443; State := 0xFF;
     get_address_family := Py.PyInt 99;
     get_local_address := Py.PyStr "10.0.2.15";
     get_remote_address := Py.PyNone;
     get_owner_pid := Py.PyInt 0;
     get_owner_procname := Py.PyStr "";
     get_create_time := Py.PyNone;
     dual_stack_sockets := [] |}.

Definition tcp_listener_dual_stack : netw_obj :=
  {| vol_offset := 0x7e4c3220;
     isinstance_UDP_ENDPOINT := false;
     isinstance_TCP_ENDPOINT := false;
     isinstance_TCP_LISTENER := true;
     is_valid := Py.Return true;
     Port := 445; LocalPort := 0; RemotePort := 0; State := 0;
     get_address_family := Py.PyInt 0x17;
     get_local_address := Py.PyNone;
     get_remote_address := Py.PyNone;
     get_owner_pid := Py.PyInt 4;
     get_owner_procname := Py.PyStr "System";
     get_create_time := Py.Datetime 1577873490;
     dual_stack_sockets :=
       [ ("v4", Py.PyStr "0.0.0.0", Py.PyStr "0.0.0.0");
         ("v6", Py.PyStr "::", Py.PyStr "::") ] |}.


(** An object of none of the three classes; it has no [is_valid]. *)
Definition stray : netw_obj :=
  {| vol_offset := 0x1000;
     isinstance_UDP_ENDPOINT := false;
     isinstance_TCP_ENDPOINT := false;
     isinstance_TCP_LISTENER := false;
     is_valid := Py.Raise (Py.AttributeError "is_valid");
     Port := 0; LocalPort := 0; RemotePort := 0; State := 0;
     get_address_family := Py.PyNone;
     get_local_address := Py.PyNone;
     get_remote_address := Py.PyNone;
     get_owner_pid := Py.PyNone;
     get_owner_procname := Py.PyNone;
     get_create_time := Py.PyNone;
     dual_stack_sockets := [] |}.

Definition candidates : list netw_obj :=
  [ tcp_listener_dual_stack; tcp_endpoint_corrupt; tcp_endpoint; udp_dual_stack; stray ].

(** A kernel image: register width, [NtMajorVersion], [NtMinorVersion] and
    the build number in [_DBGKD_GET_VERSION64.MinorVersion]. The shared
    data is readable only at the address of that register width. *)
Definition image (bits major minor build : Z) (include_corrupt : Py.val) : plugin :=
  {| symbol_table_is_64bit := bits =? 64;
     layer_isinstance_Intel := true;
     bits_per_register := bits;
     KdVersionBlock := 0x1f10a0;
     object_DBGKD_GET_VERSION64 := fun offset =>
       if offset =? 0x1f10a0 then {| MajorVersion := 15; MinorVersion := build |}
       else {| MajorVersion := 0; MinorVersion := 0 |};
     object_KUSER_SHARED_DATA := fun offset =>
       if offset =? (if bits =? 32 then 0xFFDF0000 else 0xFFFFF78000000000)
       then {| NtMajorVersion := major; NtMinorVersion := minor |}
       else {| NtMajorVersion := 0; NtMinorVersion := 0 |};
     get_type_size := fun name =>
       if String.eqb name "netscan1!_TCP_LISTENER" then 0x78
       else if String.eqb name "netscan1!_TCP_ENDPOINT" then 0x320
       else if String.eqb name "netscan1!_UDP_ENDPOINT" then 0x90
       else 0;
     IntermediateSymbolTable_create := fun _ _ => "netscan1";
     generate_pool_scan := fun constraints =>
       match constraints with
       | c :: _ => (fun o => (c, o, 0)) <$> candidates
       | [] => []
       end;
     config_include_corrupt := include_corrupt |}.

Definition win7_x64 : plugin := image 64 6 1 7601 Py.PyNone.
Definition win10_14393_x86 : plugin := image 32 10 0 14393 Py.PyNone.
Definition win10_17763_x64 : plugin := image 64 10 0 17763 (Py.PyBool true).
Definition winxp_x86 : plugin := image 32 5 1 2600 Py.PyNone.

End Sample.

(** ** The plugin *)

Module NetScan.

Definition _version : Z * Z * Z := (1, 0, 0).

Section NetScan.

(** Constants of the framework that the plugin names but does not
    define. *)
Variable BANG : string.                  (* constants.BANG *)
Variable NONPAGED FREE : Z.              (* poolscanner.PoolType.NONPAGED, .FREE *)
Variable AF_INET AF_INET6 : Z.           (* network.AF_INET, network.AF_INET6 *)
Variable TCP_STATE_ENUM : gmap Z string. (* network.TCP_STATE_ENUM *)
Variable class_types : gset string.      (* the type names of network.class_types *)
Variable win10_x64_extra : string.       (* the tag only the win10 x64 table has *)
Hypothesis win10_x64_extra_fresh : win10_x64_extra ∉ class_types.
(* the two address families are different constants *)
Hypothesis AF_INET_neq_AF_INET6 : AF_INET <> AF_INET6.

(** Modelled from the spec: [network.win10_x64_class_types] is a table of
    the absent [network] module; per the spec it is the general table
    with one extra valid type-tag, used for win10 x64 only. *)
Definition win10_x64_class_types : gset string :=
  {[ win10_x64_extra ]} ∪ class_types.

Definition create_netscan_constraints (context : plugin) (symbol_table : string)
  : list poolscanner.PoolConstraint :=
  let tcpl_size := get_type_size context (symbol_table +:+ BANG +:+ "_TCP_LISTENER") in
  let tcpe_size := get_type_size context (symbol_table +:+ BANG +:+ "_TCP_ENDPOINT") in
  let udpa_size := get_type_size context (symbol_table +:+ BANG +:+ "_UDP_ENDPOINT") in
  [ (* TCP listener *)
    {| poolscanner.tag := b "TcpL";
       poolscanner.type_name := symbol_table +:+ BANG +:+ "_TCP_LISTENER";
       poolscanner.size := (tcpl_size, None);
       poolscanner.page_type := Z.lor NONPAGED FREE |};
    (* TCP Endpoint *)
    {| poolscanner.tag := b "TcpE";
       poolscanner.type_name := symbol_table +:+ BANG +:+ "_TCP_ENDPOINT";
       poolscanner.size := (tcpe_size, None);
       poolscanner.page_type := Z.lor NONPAGED FREE |};
    (* UDP Endpoint *)
    {| poolscanner.tag := b "UdpA";
       poolscanner.type_name := symbol_table +:+ BANG +:+ "_UDP_ENDPOINT";
       poolscanner.size := (udpa_size, None);
       poolscanner.page_type := Z.lor NONPAGED FREE |} ].

(** The locals of [determine_tcpip_version] that its branches test. *)
Definition arch (self : plugin) : string :=
  if symbol_table_is_64bit self then "x64" else "x86".

Definition vers (self : plugin) : DBGKD_GET_VERSION64 :=
  object_DBGKD_GET_VERSION64 self (KdVersionBlock self).

(* this is a hard-coded address in the Windows OS *)
Definition kuser_addr (self : plugin) : Z :=
  if bits_per_register self =? 32 then 0xFFDF0000 else 0xFFFFF78000000000.

Definition kuser (self : plugin) : KUSER_SHARED_DATA :=
  object_KUSER_SHARED_DATA self (kuser_addr self).

(** [determine_tcpip_version]: the symbol file name and the class table.
    [filename] is a local that the [major = 6] chain may leave unbound
    (no [else]); reading it then raises [UnboundLocalError]. The
    fallback branch formats [major_version], a name bound nowhere in the
    function or the module: evaluating it raises [NameError]. *)
Definition determine_tcpip_version (self : plugin)
  : Py.result (string * gset string) :=
  let arch := arch self in
  if negb (layer_isinstance_Intel self) then
    Py.Raise (Py.TypeError "Virtual Layer is not an intel layer")
  else
  let vers_minor_version := MinorVersion (vers self) in
  let nt_major_version := Py.str (NtMajorVersion (kuser self)) in
  let nt_minor_version := Py.str (NtMinorVersion (kuser self)) in
  (* default to general class types, may be overwritten later. *)
  if (nt_major_version =? "10")%string then
    let class_types :=
      if (arch =? "x64")%string then win10_x64_class_types else class_types in
    let filename :=
      if vers_minor_version <? 14393 then "netscan-win10-" +:+ arch
      else if vers_minor_version <? 15063 then
        if (arch =? "x64")%string then "netscan-win10-x64"
        else "netscan-win10-14393-x86"
      else "netscan-win10-15063-" +:+ arch in
    Py.Return (filename, class_types)
  else if (nt_major_version =? "6")%string then
    let filename : option string :=
      if (nt_minor_version =? "0")%string then Some ("netscan-vista-" +:+ arch)
      else if (nt_minor_version =? "1")%string then Some ("netscan-win7-" +:+ arch)
      else if (nt_minor_version =? "2")%string then Some ("netscan-win8-" +:+ arch)
      else if (nt_minor_version =? "3")%string then Some ("netscan-win81-" +:+ arch)
      else None in
    match filename with
    | Some filename => Py.Return (filename, class_types)
    | None => Py.Raise (Py.UnboundLocalError "filename")
    end
  else
    (* default to a fallback, but this *should* not happen. *)
    Py.Raise (Py.NameError "major_version").

Definition create_netscan_symbol_table (self : plugin) : Py.result string :=
  '(symbol_filename, class_types) ← determine_tcpip_version self;
  mret (IntermediateSymbolTable_create self symbol_filename class_types).

Definition scan (context : plugin) (netscan_symbol_table : string) : list netw_obj :=
  let constraints := create_netscan_constraints context netscan_symbol_table in
  (fun '(_constraint, mem_object, _header) => mem_object)
    <$> generate_pool_scan context constraints.

(** The rows the three branches of the generator build. *)
Definition udp_row (netw_obj : netw_obj) (sock : string * Py.val * Py.val) : row :=
  let '(ver, laddr, _) := sock in
  {| col_Offset := Py.Hex (vol_offset netw_obj);
     col_Proto := Py.PyStr ("UDP" +:+ ver);
     col_LocalAddr := laddr;
     col_LocalPort := Py.PyInt (Port netw_obj);
     col_ForeignAddr := Py.PyStr "*";
     col_ForeignPort := Py.PyInt 0;
     col_State := Py.PyStr "";
     col_PID := Py.or (get_owner_pid netw_obj) Py.UnreadableValue;
     col_Owner := Py.or (get_owner_procname netw_obj) Py.UnreadableValue;
     col_Created := Py.or (get_create_time netw_obj) Py.UnreadableValue |}.

Definition tcp_endpoint_row (netw_obj : netw_obj) : row :=
  let proto :=
    if Py.eq_int (get_address_family netw_obj) AF_INET then "TCPv4"
    else if Py.eq_int (get_address_family netw_obj) AF_INET6 then "TCPv6"
    else "TCPv?" in
  let state :=
    match TCP_STATE_ENUM !! State netw_obj with
    | Some label => Py.PyStr label
    | None => Py.UnreadableValue
    end in
  {| col_Offset := Py.Hex (vol_offset netw_obj);
     col_Proto := Py.PyStr proto;
     col_LocalAddr := Py.or (get_local_address netw_obj) Py.UnreadableValue;
     col_LocalPort := Py.PyInt (LocalPort netw_obj);
     col_ForeignAddr := Py.or (get_remote_address netw_obj) Py.UnreadableValue;
     col_ForeignPort := Py.PyInt (RemotePort netw_obj);
     col_State := state;
     col_PID := Py.or (get_owner_pid netw_obj) Py.UnreadableValue;
     col_Owner := Py.or (get_owner_procname netw_obj) Py.UnreadableValue;
     col_Created := Py.or (get_create_time netw_obj) Py.UnreadableValue |}.

Definition tcp_listener_row (netw_obj : netw_obj) (sock : string * Py.val * Py.val) : row :=
  let '(ver, laddr, raddr) := sock in
  {| col_Offset := Py.Hex (vol_offset netw_obj);
     col_Proto := Py.PyStr ("TCP" +:+ ver);
     col_LocalAddr := laddr;
     col_LocalPort := Py.PyInt (Port netw_obj);
     col_ForeignAddr := raddr;
     col_ForeignPort := Py.PyInt 0;
     col_State := Py.PyStr "LISTENING";
     col_PID := Py.or (get_owner_pid netw_obj) Py.UnreadableValue;
     col_Owner := Py.or (get_owner_procname netw_obj) Py.UnreadableValue;
     col_Created := Py.or (get_create_time netw_obj) Py.UnreadableValue |}.

(** The [isinstance] chain of the loop body, for an object that got past
    the validity gate. *)
Definition classify_and_yield (netw_obj : netw_obj) : list event :=
  if isinstance_UDP_ENDPOINT netw_obj then
    Log (Found_UDP_ENDPOINT (vol_offset netw_obj))
    (* For UdpA, the state is always blank and the remote end is asterisks *)
    :: (Yield 0 ∘ udp_row netw_obj <$> dual_stack_sockets netw_obj)
  else if isinstance_TCP_ENDPOINT netw_obj then
    [ Log (Found_TCP_ENDPOINT (vol_offset netw_obj));
      Yield 0 (tcp_endpoint_row netw_obj) ]
  (* check for isinstance of tcp listener last, because all other objects
     are inherited from here *)
  else if isinstance_TCP_LISTENER netw_obj then
    Log (Found_TCP_LISTENER (vol_offset netw_obj))
    (* For TcpL, the state is always listening and the remote port is zero *)
    :: (Yield 0 ∘ tcp_listener_row netw_obj <$> dual_stack_sockets netw_obj)
  else
    (* this should not happen therefore we log it. *)
    [ Log (Found_unsure_of_type (vol_offset netw_obj)) ].

(** One pass of the [for netw_obj in self.scan(...)] loop body. In strict
    mode [netw_obj.is_valid()] is called before the [isinstance] chain;
    an exception of that call leaves the generator. *)
Definition _generator_body (show_corrupt_results : Py.val) (netw_obj : netw_obj)
  : list event :=
  Log (Found_netw_obj (vol_offset netw_obj)) ::
  (* objects passed pool header constraints. check for additional
     constraints if strict flag is set. *)
  if negb (Py.truthy show_corrupt_results) then
    match is_valid netw_obj with
    | Py.Raise e => [Raises e]
    | Py.Return valid =>
        if negb valid then [] (* continue *)
        else classify_and_yield netw_obj
    end
  else classify_and_yield netw_obj.

(** Whether a candidate gets past the validity check of the loop body:
    the check is made only when [show_corrupt_results] is falsy, and is
    passed when the call returns true. *)
Definition passes_gate (show_corrupt_results : Py.val) (netw_obj : netw_obj) : bool :=
  Py.truthy show_corrupt_results
  || match is_valid netw_obj with
     | Py.Return valid => valid
     | Py.Raise _ => false
     end.

(** Whether a trace ends in an exception. *)
Definition aborted (tr : list event) : bool :=
  match last tr with
  | Some (Raises _) => true
  | _ => false
  end.

(** The [for] loop: an exception in one pass ends the generator, the
    candidates after it are not looked at. *)
Fixpoint _generator_loop (show_corrupt_results : Py.val) (objs : list netw_obj)
  : list event :=
  match objs with
  | [] => []
  | netw_obj :: rest =>
      let pass := _generator_body show_corrupt_results netw_obj in
      if aborted pass then pass
      else pass ++ _generator_loop show_corrupt_results rest
  end.

(** [_generator], as its consumer sees it: the symbol table is created
    when the generator is first advanced (a failure there is the only
    event), then the scan results are walked in order. *)
Definition _generator (self : plugin) (show_corrupt_results : Py.val)
  : list event :=
  match create_netscan_symbol_table self with
  | Py.Raise e => [Raises e]
  | Py.Return netscan_symbol_table =>
      _generator_loop show_corrupt_results (scan self netscan_symbol_table)
  end.

(** [run]: the generator the [TreeGrid] is built over, consumed. *)
Definition run (self : plugin) : list event :=
  let show_corrupt_results := config_include_corrupt self in
  _generator self show_corrupt_results.

(** ** Properties *)

(** *** Python helpers *)

Lemma str_inj (m n : Z) : Py.str m = Py.str n -> m = n.
Proof using Type. unfold Py.str. apply (inj pretty). Qed.

Lemma str_eqb_lit (m n : Z) (s : string) :
  Py.str n = s -> (Py.str m =? s)%string = (m =? n).
Proof using Type.
  intros <-. destruct (Z.eqb_spec m n) as [->|Hne].
  - apply String.eqb_refl.
  - apply String.eqb_neq. intros H. apply Hne, str_inj, H.
Qed.

Example str_10 : Py.str 10 = "10".
Proof. reflexivity. Qed.

Example str_negative : Py.str (-3) = "-3".
Proof. reflexivity. Qed.

Lemma or_falsy (a d : Py.val) : Py.truthy a = false -> Py.or a d = d.
Proof using Type. unfold Py.or. intros ->. reflexivity. Qed.

Lemma or_truthy (a d : Py.val) : Py.truthy a = true -> Py.or a d = a.
Proof using Type. unfold Py.or. intros ->. reflexivity. Qed.

Lemma eq_int_functional (v : Py.val) (m n : Z) :
  Py.eq_int v m = true -> Py.eq_int v n = true -> m = n.
Proof using Type.
  destruct v as [ | z | s | [] | z | t | ]; cbv beta iota delta [Py.eq_int];
    try discriminate; intros H1 H2; apply Z.eqb_eq in H1, H2; congruence.
Qed.

(** *** Layout selection *)

Lemma arch_eqb_x64 (self : plugin) :
  (arch self =? "x64")%string = symbol_table_is_64bit self.
Proof using Type. unfold arch. destruct (symbol_table_is_64bit self); reflexivity. Qed.

Lemma determine_not_intel (self : plugin) :
  layer_isinstance_Intel self = false ->
  determine_tcpip_version self
  = Py.Raise (Py.TypeError "Virtual Layer is not an intel layer").
Proof using Type. unfold determine_tcpip_version. intros ->. reflexivity. Qed.

Lemma determine_major_10 (self : plugin) :
  layer_isinstance_Intel self = true ->
  NtMajorVersion (kuser self) = 10 ->
  determine_tcpip_version self
  = Py.Return
      (if MinorVersion (vers self) <? 14393 then "netscan-win10-" +:+ arch self
       else if MinorVersion (vers self) <? 15063 then
         if symbol_table_is_64bit self then "netscan-win10-x64"
         else "netscan-win10-14393-x86"
       else "netscan-win10-15063-" +:+ arch self,
       if symbol_table_is_64bit self then win10_x64_class_types else class_types).
Proof using Type.
  intros Hintel Hmajor. unfold determine_tcpip_version.
  rewrite Hintel, Hmajor. cbn [negb].
  rewrite (str_eqb_lit 10 10 "10" eq_refl), arch_eqb_x64. reflexivity.
Qed.

Lemma determine_major_6 (self : plugin) :
  layer_isinstance_Intel self = true ->
  NtMajorVersion (kuser self) = 6 ->
  determine_tcpip_version self
  = let minor := NtMinorVersion (kuser self) in
    if minor =? 0 then Py.Return ("netscan-vista-" +:+ arch self, class_types)
    else if minor =? 1 then Py.Return ("netscan-win7-" +:+ arch self, class_types)
    else if minor =? 2 then Py.Return ("netscan-win8-" +:+ arch self, class_types)
    else if minor =? 3 then Py.Return ("netscan-win81-" +:+ arch self, class_types)
    else Py.Raise (Py.UnboundLocalError "filename").
Proof using Type.
  intros Hintel Hmajor. unfold determine_tcpip_version.
  rewrite Hintel, Hmajor. cbn [negb].
  rewrite (str_eqb_lit 6 10 "10" eq_refl), (str_eqb_lit 6 6 "6" eq_refl).
  cbn [Z.eqb Pos.eqb]. cbv zeta.
  rewrite (str_eqb_lit _ 0 "0" eq_refl), (str_eqb_lit _ 1 "1" eq_refl),
    (str_eqb_lit _ 2 "2" eq_refl), (str_eqb_lit _ 3 "3" eq_refl).
  repeat (destruct (_ =? _); [reflexivity|]). reflexivity.
Qed.

Lemma determine_major_other (self : plugin) :
  layer_isinstance_Intel self = true ->
  NtMajorVersion (kuser self) <> 10 ->
  NtMajorVersion (kuser self) <> 6 ->
  determine_tcpip_version self = Py.Raise (Py.NameError "major_version").
Proof using Type.
  intros Hintel H10 H6. unfold determine_tcpip_version.
  rewrite Hintel. cbn [negb].
  rewrite (str_eqb_lit _ 10 "10" eq_refl), (str_eqb_lit _ 6 "6" eq_refl).
  apply Z.eqb_neq in H10, H6. rewrite H10, H6. reflexivity.
Qed.

(** C1. [determine_tcpip_version] follows the version table: on a win10
    kernel a build below 14393 gives the win10 file of the architecture,
    a build from 14393 up to 15062 gives the win10 x64 file on x64 and
    the separate 14393 file on x86, a build from 15063 on gives the 15063
    file of the architecture; on a kernel with major version 6 the minor
    versions 0, 1, 2 and 3 give the vista, win7, win8 and win81 file of
    the architecture. *)
Theorem determine_tcpip_version_decision_table (self : plugin) :
  layer_isinstance_Intel self = true ->
  let major := NtMajorVersion (kuser self) in
  let minor := NtMinorVersion (kuser self) in
  let build := MinorVersion (vers self) in
  let x64 := symbol_table_is_64bit self in
  let layout := fst <$> Py.value (determine_tcpip_version self) in
  (major = 10 -> build < 14393 ->
   layout = Some (if x64 then "netscan-win10-x64" else "netscan-win10-x86")) /\
  (major = 10 -> 14393 <= build < 15063 ->
   layout = Some (if x64 then "netscan-win10-x64" else "netscan-win10-14393-x86")) /\
  (major = 10 -> 15063 <= build ->
   layout = Some (if x64 then "netscan-win10-15063-x64" else "netscan-win10-15063-x86")) /\
  (major = 6 -> minor = 0 ->
   layout = Some (if x64 then "netscan-vista-x64" else "netscan-vista-x86")) /\
  (major = 6 -> minor = 1 ->
   layout = Some (if x64 then "netscan-win7-x64" else "netscan-win7-x86")) /\
  (major = 6 -> minor = 2 ->
   layout = Some (if x64 then "netscan-win8-x64" else "netscan-win8-x86")) /\
  (major = 6 -> minor = 3 ->
   layout = Some (if x64 then "netscan-win81-x64" else "netscan-win81-x86")).
Proof using Type.
  intros Hintel major minor build x64 layout.
  assert (H10 : forall lo hi : bool,
             major = 10 -> (build <? 14393) = lo -> (build <? 15063) = hi ->
             layout = Some
               (if lo then "netscan-win10-" +:+ arch self
                else if hi then
                  if x64 then "netscan-win10-x64" else "netscan-win10-14393-x86"
                else "netscan-win10-15063-" +:+ arch self)).
  { intros lo hi Hmajor Hlo Hhi. subst layout.
    rewrite (determine_major_10 self Hintel Hmajor).
    fold build. rewrite Hlo, Hhi. reflexivity. }
  assert (H6 : major = 6 ->
             layout = fst <$> Py.value
               (if minor =? 0 then Py.Return ("netscan-vista-" +:+ arch self, class_types)
                else if minor =? 1 then Py.Return ("netscan-win7-" +:+ arch self, class_types)
                else if minor =? 2 then Py.Return ("netscan-win8-" +:+ arch self, class_types)
                else if minor =? 3 then Py.Return ("netscan-win81-" +:+ arch self, class_types)
                else Py.Raise (Py.UnboundLocalError "filename"))).
  { intros Hmajor. subst layout.
    rewrite (determine_major_6 self Hintel Hmajor). reflexivity. }
  unfold arch in H10, H6. fold x64 in H10, H6.
  repeat split.
  - intros Hmajor Hb.
    rewrite (H10 true true Hmajor); [destruct x64; reflexivity | lia..].
  - intros Hmajor [Hlo Hhi].
    rewrite (H10 false true Hmajor); [destruct x64; reflexivity | lia..].
  - intros Hmajor Hb.
    rewrite (H10 false false Hmajor); [destruct x64; reflexivity | lia..].
  - intros Hmajor Hminor. rewrite (H6 Hmajor), Hminor. destruct x64; reflexivity.
  - intros Hmajor Hminor. rewrite (H6 Hmajor), Hminor. destruct x64; reflexivity.
  - intros Hmajor Hminor. rewrite (H6 Hmajor), Hminor. destruct x64; reflexivity.
  - intros Hmajor Hminor. rewrite (H6 Hmajor), Hminor. destruct x64; reflexivity.
Qed.

(** C2. On a kernel whose major version is neither 6 nor 10 the fallback
    branch does not produce a file name: formatting it reads the unbound
    name [major_version], so the call raises [NameError], and with it
    the whole run. *)
Theorem determine_tcpip_version_fallback_raises (self : plugin) :
  layer_isinstance_Intel self = true ->
  NtMajorVersion (kuser self) <> 6 ->
  NtMajorVersion (kuser self) <> 10 ->
  Py.value (determine_tcpip_version self) = None /\
  determine_tcpip_version self = Py.Raise (Py.NameError "major_version") /\
  run self = [Raises (Py.NameError "major_version")].
Proof using Type.
  intros Hintel H6 H10.
  pose proof (determine_major_other self Hintel H10 H6) as Hraise.
  unfold run, _generator, create_netscan_symbol_table.
  rewrite Hraise. repeat split.
Qed.

Lemma win10_x64_class_types_neq : win10_x64_class_types <> class_types.
Proof using win10_x64_extra_fresh.
  unfold win10_x64_class_types. intros Heq.
  apply win10_x64_extra_fresh. rewrite <- Heq.
  apply elem_of_union_l, elem_of_singleton. reflexivity.
Qed.

(** C9. The extended class table has exactly one more type tag than the
    general one, and [determine_tcpip_version] hands it out exactly when
    the kernel's major version is 10 and the symbols are 64-bit; whenever
    it returns for another combination, it hands out the general table. *)
Theorem win10_x64_class_types_selected_iff (self : plugin) :
  layer_isinstance_Intel self = true ->
  let selected := snd <$> Py.value (determine_tcpip_version self) in
  size win10_x64_class_types = S (size class_types) /\
  (selected = Some win10_x64_class_types <->
   NtMajorVersion (kuser self) = 10 /\ symbol_table_is_64bit self = true) /\
  (forall table, selected = Some table -> table <> win10_x64_class_types ->
   table = class_types).
Proof using win10_x64_extra_fresh.
  clear AF_INET_neq_AF_INET6. intros Hintel selected.
  assert (Hsel : selected
                 = if (NtMajorVersion (kuser self) =? 10) && symbol_table_is_64bit self
                   then Some win10_x64_class_types
                   else match Py.value (determine_tcpip_version self) with
                        | Some _ => Some class_types
                        | None => None
                        end).
  { subst selected.
    destruct (Z.eqb_spec (NtMajorVersion (kuser self)) 10) as [H10|H10].
    - rewrite (determine_major_10 self Hintel H10).
      destruct (symbol_table_is_64bit self); reflexivity.
    - destruct (Z.eq_dec (NtMajorVersion (kuser self)) 6) as [H6|H6].
      + rewrite (determine_major_6 self Hintel H6). cbv zeta.
        repeat (destruct (_ =? _); [reflexivity|]). reflexivity.
      + rewrite (determine_major_other self Hintel H10 H6). reflexivity. }
  split; [|split].
  - unfold win10_x64_class_types.
    rewrite size_union by set_solver. rewrite size_singleton. reflexivity.
  - rewrite Hsel. split.
    + destruct (Z.eqb_spec (NtMajorVersion (kuser self)) 10) as [H10|H10];
        destruct (symbol_table_is_64bit self); cbn [andb]; auto;
        destruct (Py.value _); intros [= Heq];
        exfalso; apply win10_x64_class_types_neq; congruence.
    + intros [-> ->]. reflexivity.
  - intros table. rewrite Hsel.
    destruct (_ && _); [congruence|].
    destruct (Py.value _); [|discriminate]. intros [= <-] _. reflexivity.
Qed.

(** *** Pool constraints *)

Lemma land_lor_l (a c : Z) : Z.land (Z.lor a c) a = a.
Proof using Type.
  apply Z.bits_inj'. intros n _.
  rewrite Z.land_spec, Z.lor_spec.
  destruct (Z.testbit a n), (Z.testbit c n); reflexivity.
Qed.

Lemma land_lor_r (a c : Z) : Z.land (Z.lor a c) c = c.
Proof using Type. rewrite Z.lor_comm. apply land_lor_l. Qed.

(** C8. [create_netscan_constraints] gives three constraints, tagged
    [TcpL], [TcpE] and [UdpA], for the listener, endpoint and UDP
    endpoint types of the symbol table; each bounds the size from below
    by the size of its own type and leaves it unbounded above, and each
    admits both the non-paged and the free pool. *)
Theorem create_netscan_constraints_three (context : plugin) (symbol_table : string) :
  let constraints := create_netscan_constraints context symbol_table in
  length constraints = 3%nat /\
  poolscanner.tag <$> constraints = [b "TcpL"; b "TcpE"; b "UdpA"] /\
  poolscanner.type_name <$> constraints
  = [ symbol_table +:+ BANG +:+ "_TCP_LISTENER";
      symbol_table +:+ BANG +:+ "_TCP_ENDPOINT";
      symbol_table +:+ BANG +:+ "_UDP_ENDPOINT" ] /\
  forall c, c ∈ constraints ->
    poolscanner.size c = (get_type_size context (poolscanner.type_name c), None) /\
    poolscanner.page_type c = Z.lor NONPAGED FREE /\
    Z.land (poolscanner.page_type c) NONPAGED = NONPAGED /\
    Z.land (poolscanner.page_type c) FREE = FREE.
Proof using Type.
  intros constraints. subst constraints. unfold create_netscan_constraints.
  repeat split; try reflexivity;
    repeat (match goal with
            | H : _ ∈ _ :: _ |- _ => apply elem_of_cons in H as [->|H]
            | H : _ ∈ [] |- _ => apply elem_of_nil in H; destruct H
            end);
    cbn [poolscanner.size poolscanner.type_name poolscanner.page_type];
    auto using land_lor_l, land_lor_r.
Qed.

(** *** The generator *)

Lemma yielded_app (tr1 tr2 : list event) :
  yielded (tr1 ++ tr2) = (yielded tr1 ++ yielded tr2)%list.
Proof using Type. unfold yielded. apply omap_app. Qed.

Lemma yielded_Yield_fmap {A : Type} (f : A -> row) (l : list A) :
  yielded (Yield 0 ∘ f <$> l) = f <$> l.
Proof using Type. induction l as [|x l IH]; [reflexivity|]. cbn. f_equal. exact IH. Qed.

Lemma yielded_classify (o : netw_obj) :
  yielded (classify_and_yield o)
  = if isinstance_UDP_ENDPOINT o then udp_row o <$> dual_stack_sockets o
    else if isinstance_TCP_ENDPOINT o then [tcp_endpoint_row o]
    else if isinstance_TCP_LISTENER o then tcp_listener_row o <$> dual_stack_sockets o
    else [].
Proof using Type.
  unfold classify_and_yield.
  destruct (isinstance_UDP_ENDPOINT o); [apply (yielded_Yield_fmap (udp_row o))|].
  destruct (isinstance_TCP_ENDPOINT o); [reflexivity|].
  destruct (isinstance_TCP_LISTENER o); [|reflexivity].
  apply (yielded_Yield_fmap (tcp_listener_row o)).
Qed.

(** The exception the validity check of a pass raises, if it is made and
    raises. *)
Definition gate_raises (flag : Py.val) (o : netw_obj) : option Py.exn :=
  if Py.truthy flag then None
  else match is_valid o with
       | Py.Raise e => Some e
       | Py.Return _ => None
       end.

Lemma body_gate (flag : Py.val) (o : netw_obj) :
  _generator_body flag o
  = Log (Found_netw_obj (vol_offset o))
      :: if passes_gate flag o then classify_and_yield o
         else match gate_raises flag o with
              | Some e => [Raises e]
              | None => []
              end.
Proof using Type.
  unfold _generator_body, passes_gate, gate_raises.
  destruct (Py.truthy flag); [reflexivity|].
  destruct (is_valid o) as [[]|e]; reflexivity.
Qed.

Lemma passes_gate_no_raise (flag : Py.val) (o : netw_obj) :
  passes_gate flag o = true -> gate_raises flag o = None.
Proof using Type.
  unfold passes_gate, gate_raises.
  destruct (Py.truthy flag); [reflexivity|].
  destruct (is_valid o); [reflexivity | discriminate].
Qed.

Lemma yielded_body (flag : Py.val) (o : netw_obj) :
  yielded (_generator_body flag o)
  = if passes_gate flag o then yielded (classify_and_yield o) else [].
Proof using Type.
  rewrite body_gate. destruct (passes_gate flag o); [reflexivity|].
  destruct (gate_raises flag o); reflexivity.
Qed.


Lemma Raises_not_in_classify (o : netw_obj) (e : Py.exn) :
  Raises e ∉ classify_and_yield o.
Proof using Type.
  unfold classify_and_yield. intros Hin.
  destruct (isinstance_UDP_ENDPOINT o).
  { apply elem_of_cons in Hin as [Heq|Hin]; [discriminate Heq|].
    apply list_elem_of_fmap in Hin as (x & Heq & _). discriminate Heq. }
  destruct (isinstance_TCP_ENDPOINT o).
  { repeat (apply elem_of_cons in Hin as [Heq|Hin]; [discriminate Heq|]).
    apply elem_of_nil in Hin. exact Hin. }
  destruct (isinstance_TCP_LISTENER o).
  { apply elem_of_cons in Hin as [Heq|Hin]; [discriminate Heq|].
    apply list_elem_of_fmap in Hin as (x & Heq & _). discriminate Heq. }
  repeat (apply elem_of_cons in Hin as [Heq|Hin]; [discriminate Heq|]).
  apply elem_of_nil in Hin. exact Hin.
Qed.

Lemma aborted_true (tr : list event) :
  aborted tr = true -> exists e, Raises e ∈ tr.
Proof using Type.
  unfold aborted. destruct (last tr) as [[l|level r|e]|] eqn:Hlast; try discriminate.
  intros _. exists e. apply last_Some in Hlast as [tr' ->].
  apply elem_of_app. right. apply elem_of_cons. left. reflexivity.
Qed.

Lemma aborted_body (flag : Py.val) (o : netw_obj) :
  aborted (_generator_body flag o)
  = match gate_raises flag o with Some _ => true | None => false end.
Proof using Type.
  rewrite body_gate. destruct (passes_gate flag o) eqn:Hgate.
  - rewrite (passes_gate_no_raise flag o Hgate).
    destruct (aborted _) eqn:Hab; [|reflexivity].
    apply aborted_true in Hab as [e Hin].
    apply elem_of_cons in Hin as [Heq|Hin]; [discriminate Heq|].
    destruct (Raises_not_in_classify o e Hin).
  - destruct (gate_raises flag o); reflexivity.
Qed.

Lemma loop_cons (flag : Py.val) (o : netw_obj) (rest : list netw_obj) :
  _generator_loop flag (o :: rest)
  = match gate_raises flag o with
    | Some _ => _generator_body flag o
    | None => (_generator_body flag o ++ _generator_loop flag rest)%list
    end.
Proof using Type.
  cbn [_generator_loop]. cbv zeta. rewrite aborted_body.
  destruct (gate_raises flag o); reflexivity.
Qed.

Lemma gate_raises_permissive (flag : Py.val) (o : netw_obj) :
  Py.truthy flag = true -> gate_raises flag o = None.
Proof using Type. unfold gate_raises. intros ->. reflexivity. Qed.

Lemma gate_raises_returns (flag : Py.val) (o : netw_obj) (valid : bool) :
  is_valid o = Py.Return valid -> gate_raises flag o = None.
Proof using Type.
  unfold gate_raises. intros ->. destruct (Py.truthy flag); reflexivity.
Qed.

Lemma in_loop_cons (flag : Py.val) (o : netw_obj) (rest : list netw_obj) (ev : event) :
  ev ∈ _generator_loop flag (o :: rest) ->
  ev ∈ _generator_body flag o \/ ev ∈ _generator_loop flag rest.
Proof using Type.
  rewrite loop_cons. destruct (gate_raises flag o); [auto|].
  intros Hin. apply elem_of_app in Hin. exact Hin.
Qed.





(** C5. Every row yielded for a candidate that takes the UDP branch has
    the empty string as state, [*] as foreign address and 0 as foreign
    port. *)
Theorem udp_endpoint_rows (flag : Py.val) (o : netw_obj) (r : row) :
  isinstance_UDP_ENDPOINT o = true ->
  r ∈ yielded (_generator_body flag o) ->
  col_State r = Py.PyStr "" /\
  col_ForeignAddr r = Py.PyStr "*" /\
  col_ForeignPort r = Py.PyInt 0.
Proof using Type.
  intros Hudp Hin. rewrite yielded_body, yielded_classify, Hudp in Hin.
  destruct (passes_gate flag o); [|apply elem_of_nil in Hin; destruct Hin].
  apply list_elem_of_fmap in Hin as ([[ver laddr] raddr] & -> & _).
  repeat split.
Qed.

(** C6. The row yielded for a candidate that takes the TCP endpoint
    branch has protocol [TCPv4] when its address family equals
    [AF_INET], [TCPv6] when it equals [AF_INET6] and [TCPv?] otherwise;
    its state is the label [TCP_STATE_ENUM] has for the state code, and
    [UnreadableValue] (not the empty string) when the table has none.
    The candidate yields that one row. *)
Theorem tcp_endpoint_rows (flag : Py.val) (o : netw_obj) (r : row) :
  isinstance_UDP_ENDPOINT o = false ->
  isinstance_TCP_ENDPOINT o = true ->
  r ∈ yielded (_generator_body flag o) ->
  yielded (_generator_body flag o) = [r] /\
  (Py.eq_int (get_address_family o) AF_INET = true ->
   col_Proto r = Py.PyStr "TCPv4") /\
  (Py.eq_int (get_address_family o) AF_INET6 = true ->
   col_Proto r = Py.PyStr "TCPv6") /\
  (Py.eq_int (get_address_family o) AF_INET = false ->
   Py.eq_int (get_address_family o) AF_INET6 = false ->
   col_Proto r = Py.PyStr "TCPv?") /\
  (TCP_STATE_ENUM !! State o = None ->
   col_State r = Py.UnreadableValue /\ col_State r <> Py.PyStr "") /\
  (forall label, TCP_STATE_ENUM !! State o = Some label ->
   col_State r = Py.PyStr label).
Proof using AF_INET_neq_AF_INET6.
  intros Hudp Htcpe Hin.
  rewrite yielded_body, yielded_classify, Hudp, Htcpe in Hin |- *.
  destruct (passes_gate flag o); [|apply elem_of_nil in Hin; destruct Hin].
  apply list_elem_of_singleton in Hin as ->.
  unfold tcp_endpoint_row. cbn [col_Proto col_State].
  split; [reflexivity|]. split; [|split; [|split; [|split]]].
  - intros ->. reflexivity.
  - intros H6.
    destruct (Py.eq_int (get_address_family o) AF_INET) eqn:H4.
    + destruct AF_INET_neq_AF_INET6.
      exact (eq_int_functional _ _ _ H4 H6).
    + rewrite H6. reflexivity.
  - intros -> ->. reflexivity.
  - intros ->. split; [reflexivity | discriminate].
  - intros label ->. reflexivity.
Qed.

(** C7. Every row yielded for a candidate that takes the TCP listener
    branch has state [LISTENING] and foreign port 0. A dual-stack
    candidate that takes the UDP or the listener branch yields exactly
    two rows, a [v4] and a [v6] one, that agree in offset, ports, state,
    pid, owner and creation time. *)
Theorem tcp_listener_and_dual_stack_rows (flag : Py.val) (o : netw_obj) :
  passes_gate flag o = true ->
  (isinstance_UDP_ENDPOINT o = false -> isinstance_TCP_ENDPOINT o = false ->
   isinstance_TCP_LISTENER o = true ->
   forall r, r ∈ yielded (_generator_body flag o) ->
     col_State r = Py.PyStr "LISTENING" /\ col_ForeignPort r = Py.PyInt 0) /\
  (dual_stack o ->
   forall proto : string,
     (isinstance_UDP_ENDPOINT o = true /\ proto = "UDP") \/
     (isinstance_UDP_ENDPOINT o = false /\ isinstance_TCP_ENDPOINT o = false /\
      isinstance_TCP_LISTENER o = true /\ proto = "TCP") ->
     exists r4 r6,
       yielded (_generator_body flag o) = [r4; r6] /\
       col_Proto r4 = Py.PyStr (proto +:+ "v4") /\
       col_Proto r6 = Py.PyStr (proto +:+ "v6") /\
       col_Proto r4 <> col_Proto r6 /\
       same_socket_fields r4 r6).
Proof using Type.
  intros Hgate. rewrite yielded_body, yielded_classify, Hgate. split.
  - intros -> -> -> r Hin.
    apply list_elem_of_fmap in Hin as ([[ver laddr] raddr] & -> & _).
    split; reflexivity.
  - unfold dual_stack. intros Hdual proto Hkind.
    destruct (dual_stack_sockets o) as [|[[v4 l4] a4] [|[[v6 l6] a6] [|? ?]]];
      try discriminate Hdual.
    injection Hdual as -> ->.
    destruct Hkind as [[-> ->]|(-> & -> & -> & ->)].
    + exists (udp_row o ("v4", l4, a4)), (udp_row o ("v6", l6, a6)).
      repeat split. discriminate.
    + exists (tcp_listener_row o ("v4", l4, a4)), (tcp_listener_row o ("v6", l6, a6)).
      repeat split. discriminate.
Qed.

Lemma fmap_ext_all {A B : Type} (f g : A -> B) (l : list A) :
  (forall x, f x = g x) -> f <$> l = g <$> l.
Proof using Type.
  intros Hfg. induction l as [|x l IH]; [reflexivity|].
  cbn. rewrite Hfg. f_equal. exact IH.
Qed.

(** C10. In every yielded row, of whichever branch, a falsy result of
    [get_owner_pid()], [get_owner_procname()] or [get_create_time()]
    (0, the empty string, [None]) is replaced by [UnreadableValue]; so
    two candidates that differ only in which falsy values these
    accessors give produce the same events. *)
Theorem falsy_owner_fields_unreadable (flag : Py.val) (o : netw_obj) :
  (forall r, r ∈ yielded (_generator_body flag o) ->
     (Py.truthy (get_owner_pid o) = false -> col_PID r = Py.UnreadableValue) /\
     (Py.truthy (get_owner_procname o) = false -> col_Owner r = Py.UnreadableValue) /\
     (Py.truthy (get_create_time o) = false -> col_Created r = Py.UnreadableValue)) /\
  (forall pid procname create_time pid' procname' create_time',
     Py.truthy pid = false -> Py.truthy pid' = false ->
     Py.truthy procname = false -> Py.truthy procname' = false ->
     Py.truthy create_time = false -> Py.truthy create_time' = false ->
     _generator_body flag (set_owner o pid procname create_time)
     = _generator_body flag (set_owner o pid' procname' create_time')).
Proof using Type.
  split.
  - intros r Hin. rewrite yielded_body, yielded_classify in Hin.
    destruct (passes_gate flag o); [|apply elem_of_nil in Hin; destruct Hin].
    assert (Hrow : col_PID r = Py.or (get_owner_pid o) Py.UnreadableValue /\
                   col_Owner r = Py.or (get_owner_procname o) Py.UnreadableValue /\
                   col_Created r = Py.or (get_create_time o) Py.UnreadableValue).
    { destruct (isinstance_UDP_ENDPOINT o);
        [apply list_elem_of_fmap in Hin as ([[ver laddr] raddr] & -> & _);
         repeat split|].
      destruct (isinstance_TCP_ENDPOINT o);
        [apply list_elem_of_singleton in Hin as ->; repeat split|].
      destruct (isinstance_TCP_LISTENER o);
        [apply list_elem_of_fmap in Hin as ([[ver laddr] raddr] & -> & _);
         repeat split|].
      apply elem_of_nil in Hin. destruct Hin. }
    destruct Hrow as (-> & -> & ->).
    repeat split; apply or_falsy.
  - intros pid procname create_time pid' procname' create_time' Hp Hp' Hn Hn' Ht Ht'.
    rewrite !body_gate. unfold passes_gate, classify_and_yield.
    cbn [set_owner vol_offset is_valid isinstance_UDP_ENDPOINT isinstance_TCP_ENDPOINT
         isinstance_TCP_LISTENER dual_stack_sockets].
    assert (Hudp : forall sock, udp_row (set_owner o pid procname create_time) sock
                                = udp_row (set_owner o pid' procname' create_time') sock).
    { intros [[ver laddr] raddr]. unfold udp_row. cbn.
      rewrite !or_falsy by assumption. reflexivity. }
    assert (Htcpl : forall sock,
               tcp_listener_row (set_owner o pid procname create_time) sock
               = tcp_listener_row (set_owner o pid' procname' create_time') sock).
    { intros [[ver laddr] raddr]. unfold tcp_listener_row. cbn.
      rewrite !or_falsy by assumption. reflexivity. }
    assert (Htcpe : tcp_endpoint_row (set_owner o pid procname create_time)
                    = tcp_endpoint_row (set_owner o pid' procname' create_time')).
    { unfold tcp_endpoint_row. cbn.
      rewrite !(or_falsy pid), !(or_falsy pid'), !(or_falsy procname),
        !(or_falsy procname'), !(or_falsy create_time), !(or_falsy create_time')
        by assumption.
      reflexivity. }
    rewrite Htcpe.
    rewrite (fmap_ext_all (Yield 0 ∘ udp_row (set_owner o pid procname create_time))
               (Yield 0 ∘ udp_row (set_owner o pid' procname' create_time')))
      by (intros sock; cbn; rewrite Hudp; reflexivity).
    rewrite (fmap_ext_all
               (Yield 0 ∘ tcp_listener_row (set_owner o pid procname create_time))
               (Yield 0 ∘ tcp_listener_row (set_owner o pid' procname' create_time')))
      by (intros sock; cbn; rewrite Htcpl; reflexivity).
    reflexivity.
Qed.

(** ** Further properties *)

(** *** Layout selection and the start of a run *)

(** The symbol files [determine_tcpip_version] names, by architecture. *)
Definition symbol_filenames (is_64bit : bool) : list string :=
  if is_64bit then
    [ "netscan-win10-x64"; "netscan-win10-15063-x64"; "netscan-vista-x64";
      "netscan-win7-x64"; "netscan-win8-x64"; "netscan-win81-x64" ]
  else
    [ "netscan-win10-x86"; "netscan-win10-14393-x86"; "netscan-win10-15063-x86";
      "netscan-vista-x86"; "netscan-win7-x86"; "netscan-win8-x86";
      "netscan-win81-x86" ].

Lemma determine_outcome (self : plugin) :
  layer_isinstance_Intel self = true ->
  let major := NtMajorVersion (kuser self) in
  let minor := NtMinorVersion (kuser self) in
  (major = 10 /\ exists f, f ∈ symbol_filenames (symbol_table_is_64bit self) /\
     determine_tcpip_version self
     = Py.Return (f, if symbol_table_is_64bit self then win10_x64_class_types
                     else class_types)) \/
  (major = 6 /\ 0 <= minor <= 3 /\
   exists f, f ∈ symbol_filenames (symbol_table_is_64bit self) /\
     determine_tcpip_version self = Py.Return (f, class_types)) \/
  (major = 6 /\ ~ 0 <= minor <= 3 /\
   determine_tcpip_version self = Py.Raise (Py.UnboundLocalError "filename")) \/
  (major <> 10 /\ major <> 6 /\
   determine_tcpip_version self = Py.Raise (Py.NameError "major_version")).
Proof using Type.
  clear win10_x64_extra_fresh AF_INET_neq_AF_INET6.
  intros Hintel major minor.
  destruct (Z.eq_dec major 10) as [H10|H10].
  { left. split; [exact H10|].
    rewrite (determine_major_10 self Hintel H10). unfold arch, symbol_filenames.
    eexists. split; [|reflexivity].
    destruct (MinorVersion (vers self) <? 14393),
      (MinorVersion (vers self) <? 15063), (symbol_table_is_64bit self);
      cbn; set_solver. }
  destruct (Z.eq_dec major 6) as [H6|H6].
  2:{ right. right. right. repeat split; try assumption.
      apply determine_major_other; assumption. }
  right. rewrite (determine_major_6 self Hintel H6). fold minor. cbv zeta.
  unfold arch, symbol_filenames.
  destruct (Z.eqb_spec minor 0) as [H0|H0];
    [left; repeat split; [assumption|lia..|]; eexists; split; [|reflexivity];
     destruct (symbol_table_is_64bit self); cbn; set_solver|].
  destruct (Z.eqb_spec minor 1) as [H1|H1];
    [left; repeat split; [assumption|lia..|]; eexists; split; [|reflexivity];
     destruct (symbol_table_is_64bit self); cbn; set_solver|].
  destruct (Z.eqb_spec minor 2) as [H2|H2];
    [left; repeat split; [assumption|lia..|]; eexists; split; [|reflexivity];
     destruct (symbol_table_is_64bit self); cbn; set_solver|].
  destruct (Z.eqb_spec minor 3) as [H3|H3];
    [left; repeat split; [assumption|lia..|]; eexists; split; [|reflexivity];
     destruct (symbol_table_is_64bit self); cbn; set_solver|].
  right. left. repeat split; [assumption | lia].
Qed.

(** X1. [determine_tcpip_version] returns a value only for an Intel layer
    with a kernel 10.x or 6.0 to 6.3: for no other layer or version does
    a file name come back. Of its own branches, the layer test raises
    [TypeError] on another layer, whatever the version fields hold, and
    on a kernel read as 6.x with another minor version no branch binds
    [filename], so reading it raises [UnboundLocalError]. *)
Theorem determine_tcpip_version_returns_only_if (self : plugin) :
  let major := NtMajorVersion (kuser self) in
  let minor := NtMinorVersion (kuser self) in
  (is_Some (Py.value (determine_tcpip_version self)) ->
   layer_isinstance_Intel self = true /\
   (major = 10 \/ (major = 6 /\ 0 <= minor <= 3))) /\
  (layer_isinstance_Intel self = false ->
   determine_tcpip_version self
   = Py.Raise (Py.TypeError "Virtual Layer is not an intel layer")) /\
  (layer_isinstance_Intel self = true -> major = 6 -> ~ 0 <= minor <= 3 ->
   determine_tcpip_version self = Py.Raise (Py.UnboundLocalError "filename")).
Proof using Type.
  clear win10_x64_extra_fresh AF_INET_neq_AF_INET6.
  intros major minor.
  destruct (layer_isinstance_Intel self) eqn:Hintel.
  - pose proof (determine_outcome self Hintel) as Hout. cbv zeta in Hout.
    fold major minor in Hout.
    split; [|split; [discriminate|]].
    + destruct Hout as [(H10 & f & _ & ->)|[(H6 & Hm & f & _ & ->)
                       |[(H6 & Hm & ->)|(H10 & H6 & ->)]]]; cbn.
      * intros _. auto.
      * intros _. auto.
      * intros [x Hx]. discriminate Hx.
      * intros [x Hx]. discriminate Hx.
    + intros _ H6 Hm.
      destruct Hout as [(H10 & _)|[(_ & Hm' & _)|[(_ & _ & ->)|(_ & H6' & _)]]];
        [lia | contradiction | reflexivity | contradiction].
  - rewrite (determine_not_intel self Hintel). cbn.
    split; [|split; [reflexivity | discriminate]].
    intros [x Hx]. discriminate Hx.
Qed.

Lemma symbol_filenames_disjoint (f : string) :
  f ∈ symbol_filenames true -> f ∈ symbol_filenames false -> False.
Proof using Type.
  clear win10_x64_extra_fresh AF_INET_neq_AF_INET6.
  unfold symbol_filenames. intros H64 H86.
  repeat (apply elem_of_cons in H64 as [->|H64]);
    [..|apply elem_of_nil in H64; exact H64];
    repeat (apply elem_of_cons in H86 as [H86|H86]; [discriminate H86|]);
    apply elem_of_nil in H86; exact H86.
Qed.

(** X2. A file name [determine_tcpip_version] returns is one of the six
    x64 files when the nt symbols are 64-bit and one of the seven x86
    files otherwise; so two images of different architectures never get
    the same symbol file. *)
Theorem determine_tcpip_version_filenames
    (self : plugin) (filename : string) (table : gset string) :
  determine_tcpip_version self = Py.Return (filename, table) ->
  filename ∈ symbol_filenames (symbol_table_is_64bit self) /\
  (forall self' filename' table',
     determine_tcpip_version self' = Py.Return (filename', table') ->
     symbol_table_is_64bit self' <> symbol_table_is_64bit self ->
     filename' <> filename).
Proof using Type.
  clear win10_x64_extra_fresh AF_INET_neq_AF_INET6.
  assert (Hin : forall s f t,
             determine_tcpip_version s = Py.Return (f, t) ->
             f ∈ symbol_filenames (symbol_table_is_64bit s)).
  { intros s f t Hret.
    destruct (layer_isinstance_Intel s) eqn:Hintel;
      [|rewrite (determine_not_intel s Hintel) in Hret; discriminate Hret].
    destruct (determine_outcome s Hintel)
      as [(_ & f' & Hf & Heq)|[(_ & _ & f' & Hf & Heq)|[(_ & _ & Heq)|(_ & _ & Heq)]]];
      rewrite Heq in Hret; try discriminate Hret;
      injection Hret as <- _; exact Hf. }
  intros Hret. split; [exact (Hin _ _ _ Hret)|].
  intros self' filename' table' Hret' Harch ->.
  pose proof (Hin _ _ _ Hret) as H1. pose proof (Hin _ _ _ Hret') as H2.
  destruct (symbol_table_is_64bit self), (symbol_table_is_64bit self');
    try (apply Harch; reflexivity);
    eauto using symbol_filenames_disjoint.
Qed.

(** *** Pool constraints *)

(** X4. Whatever the table name and the separator, the three constraints
    name three different types and carry three different tags of four
    bytes each, so a pool header matches at most one of them by tag. *)
Theorem create_netscan_constraints_distinct (context : plugin) (symbol_table : string) :
  let constraints := create_netscan_constraints context symbol_table in
  NoDup (poolscanner.type_name <$> constraints) /\
  NoDup (poolscanner.tag <$> constraints) /\
  Forall (fun c => length (poolscanner.tag c) = 4%nat) constraints.
Proof using Type.
  clear win10_x64_extra_fresh AF_INET_neq_AF_INET6.
  intros constraints. subst constraints. unfold create_netscan_constraints.
  cbn [fmap list_fmap poolscanner.type_name poolscanner.tag].
  split; [|split].
  - assert (Hne : forall s1 s2 : string,
               s1 <> s2 ->
               symbol_table +:+ BANG +:+ s1 <> symbol_table +:+ BANG +:+ s2).
    { intros s1 s2 Hs Heq. apply Hs.
      apply (inj (String.app BANG)), (inj (String.app symbol_table)), Heq. }
    repeat (apply NoDup_cons; split);
      [| |apply not_elem_of_nil|apply NoDup_nil; exact I].
    + intros Hin. repeat (apply elem_of_cons in Hin as [Hin|Hin];
        [revert Hin; apply Hne; discriminate|]).
      apply elem_of_nil in Hin. exact Hin.
    + intros Hin. repeat (apply elem_of_cons in Hin as [Hin|Hin];
        [revert Hin; apply Hne; discriminate|]).
      apply elem_of_nil in Hin. exact Hin.
  - repeat (apply NoDup_cons; split);
      [| |apply not_elem_of_nil|apply NoDup_nil; exact I];
      intros Hin;
      repeat (apply elem_of_cons in Hin as [Hin|Hin]; [discriminate Hin|]);
      apply elem_of_nil in Hin; exact Hin.
  - repeat constructor.
Qed.

(** X5. The page type of every constraint is made of the non-paged and
    the free flag only: a pool type whose bits are disjoint from both
    (the paged pool, for one) is not admitted. *)
Theorem create_netscan_constraints_page_type_only
    (context : plugin) (symbol_table : string) (pool_type : Z)
    (c : poolscanner.PoolConstraint) :
  Z.land pool_type NONPAGED = 0 ->
  Z.land pool_type FREE = 0 ->
  c ∈ create_netscan_constraints context symbol_table ->
  Z.land (poolscanner.page_type c) pool_type = 0.
Proof using Type.
  clear win10_x64_extra_fresh AF_INET_neq_AF_INET6.
  intros Hnp Hfree Hin.
  assert (Hpage : poolscanner.page_type c = Z.lor NONPAGED FREE).
  { unfold create_netscan_constraints in Hin.
    repeat (apply elem_of_cons in Hin as [->|Hin]; [reflexivity|]).
    apply elem_of_nil in Hin. destruct Hin. }
  rewrite Hpage, Z.land_lor_distr_l.
  rewrite (Z.land_comm NONPAGED), (Z.land_comm FREE), Hnp, Hfree. reflexivity.
Qed.

(** *** The generator loop *)






Lemma body_raises (flag : Py.val) (o : netw_obj) (e : Py.exn) :
  gate_raises flag o = Some e ->
  Py.truthy flag = false /\ is_valid o = Py.Raise e /\
  _generator_body flag o = [Log (Found_netw_obj (vol_offset o)); Raises e].
Proof using Type.
  unfold gate_raises, _generator_body.
  destruct (Py.truthy flag); [discriminate|].
  destruct (is_valid o) as [valid|e']; [discriminate|].
  intros [= ->]. repeat split.
Qed.




Lemma Yield_in_body (flag : Py.val) (o : netw_obj) (level : Z) (r : row) :
  Yield level r ∈ _generator_body flag o ->
  level = 0 /\ r ∈ yielded (_generator_body flag o) /\ passes_gate flag o = true /\
  isinstance_UDP_ENDPOINT o || isinstance_TCP_ENDPOINT o
    || isinstance_TCP_LISTENER o = true.
Proof using Type.
  clear win10_x64_extra_fresh AF_INET_neq_AF_INET6.
  rewrite yielded_body, yielded_classify, body_gate. intros Hin.
  apply elem_of_cons in Hin as [Heq|Hin]; [discriminate Heq|].
  destruct (passes_gate flag o).
  2:{ destruct (gate_raises flag o);
        [apply elem_of_cons in Hin as [Heq|Hin]; [discriminate Heq|]|];
        apply elem_of_nil in Hin; destruct Hin. }
  unfold classify_and_yield in Hin.
  destruct (isinstance_UDP_ENDPOINT o).
  { apply elem_of_cons in Hin as [Heq|Hin]; [discriminate Heq|].
    apply list_elem_of_fmap in Hin as (sock & [= -> ->] & Hsock).
    repeat split. apply list_elem_of_fmap. exists sock. split; [reflexivity|exact Hsock]. }
  destruct (isinstance_TCP_ENDPOINT o).
  { repeat (apply elem_of_cons in Hin as [Heq|Hin];
            [first [discriminate Heq | injection Heq as -> ->]|]).
    - repeat split. apply list_elem_of_singleton. reflexivity.
    - apply elem_of_nil in Hin. destruct Hin. }
  destruct (isinstance_TCP_LISTENER o).
  { apply elem_of_cons in Hin as [Heq|Hin]; [discriminate Heq|].
    apply list_elem_of_fmap in Hin as (sock & [= -> ->] & Hsock).
    repeat split. apply list_elem_of_fmap. exists sock. split; [reflexivity|exact Hsock]. }
  apply elem_of_cons in Hin as [Heq|Hin]; [discriminate Heq|].
  apply elem_of_nil in Hin. destruct Hin.
Qed.

Lemma row_offset (flag : Py.val) (o : netw_obj) (r : row) :
  r ∈ yielded (_generator_body flag o) -> col_Offset r = Py.Hex (vol_offset o).
Proof using Type.
  rewrite yielded_body, yielded_classify. intros Hin.
  destruct (passes_gate flag o); [|apply elem_of_nil in Hin; destruct Hin].
  destruct (isinstance_UDP_ENDPOINT o);
    [apply list_elem_of_fmap in Hin as ([[ver laddr] raddr] & -> & _); reflexivity|].
  destruct (isinstance_TCP_ENDPOINT o);
    [apply list_elem_of_singleton in Hin as ->; reflexivity|].
  destruct (isinstance_TCP_LISTENER o);
    [apply list_elem_of_fmap in Hin as ([[ver laddr] raddr] & -> & _); reflexivity|].
  apply elem_of_nil in Hin. destruct Hin.
Qed.

(** X7. Every row of a run is yielded at level 0 and carries the offset
    of a candidate of the scan that got past the validity gate and is an
    instance of one of the three network classes: no row is made up for
    a candidate the strict check excluded or for an object of no known
    class. *)
Theorem yielded_rows_have_a_candidate
    (flag : Py.val) (objs : list netw_obj) (level : Z) (r : row) :
  Yield level r ∈ _generator_loop flag objs ->
  level = 0 /\
  exists o, o ∈ objs /\
    passes_gate flag o = true /\
    isinstance_UDP_ENDPOINT o || isinstance_TCP_ENDPOINT o
      || isinstance_TCP_LISTENER o = true /\
    col_Offset r = Py.Hex (vol_offset o).
Proof using Type.
  clear win10_x64_extra_fresh AF_INET_neq_AF_INET6.
  induction objs as [|o objs IH]; intros Hin.
  - apply elem_of_nil in Hin. destruct Hin.
  - apply in_loop_cons in Hin as [Hin|Hin].
    + apply Yield_in_body in Hin as (-> & Hr & Hgate & Hclass).
      split; [reflexivity|]. exists o. repeat split; try assumption.
      * apply elem_of_cons. left. reflexivity.
      * exact (row_offset flag o r Hr).
    + destruct (IH Hin) as (-> & o' & Ho' & Hrest).
      split; [reflexivity|]. exists o'. split; [|exact Hrest].
      apply elem_of_cons. right. exact Ho'.
Qed.

(** X8. The rows of a strict run are a sublist of the rows of a
    permissive run over the same candidates: the flag only adds rows, it
    changes and reorders none. When every candidate is valid the two
    runs produce the same events. *)
Theorem strict_rows_sublist_of_permissive
    (strict permissive : Py.val) (objs : list netw_obj) :
  Py.truthy strict = false ->
  Py.truthy permissive = true ->
  yielded (_generator_loop strict objs)
    `sublist_of` yielded (_generator_loop permissive objs) /\
  (Forall (fun o => is_valid o = Py.Return true) objs ->
   _generator_loop strict objs = _generator_loop permissive objs).
Proof using Type.
  clear win10_x64_extra_fresh AF_INET_neq_AF_INET6.
  intros Hstrict Hperm. split.
  - induction objs as [|o objs IH]; [reflexivity|].
    rewrite !loop_cons, (gate_raises_permissive permissive o Hperm).
    rewrite (yielded_app (_generator_body permissive o)), (yielded_body permissive).
    assert (Hopen : passes_gate permissive o = true)
      by (unfold passes_gate; rewrite Hperm; reflexivity).
    rewrite Hopen.
    destruct (gate_raises strict o) as [e|] eqn:Hraise.
    + destruct (body_raises strict o e Hraise) as (_ & _ & ->).
      apply sublist_nil_l.
    + rewrite yielded_app, yielded_body.
      destruct (passes_gate strict o).
      * apply sublist_app; [reflexivity | exact IH].
      * apply sublist_inserts_l. exact IH.
  - induction 1 as [|o objs Hvalid _ IH]; [reflexivity|].
    rewrite !loop_cons, IH, (gate_raises_permissive permissive o Hperm),
      (gate_raises_returns strict o true Hvalid), !body_gate.
    unfold passes_gate. rewrite Hstrict, Hperm, Hvalid. reflexivity.
Qed.

Lemma prefix_append (p s : string) : String.prefix p (p +:+ s) = true.
Proof using Type.
  induction p as [|c p IH]; [destruct s; reflexivity|].
  change (String.prefix (String c p) (String c (p +:+ s)) = true).
  simpl. destruct (Ascii.ascii_dec c c) as [_|Hne]; [exact IH | contradiction].
Qed.

Lemma truthy_or_unreadable (a : Py.val) :
  Py.truthy (Py.or a Py.UnreadableValue) = true.
Proof using Type.
  unfold Py.or. destruct (Py.truthy a) eqn:Ha; [exact Ha | reflexivity].
Qed.

(** X9. In every yielded row the offset is the candidate's, as a [Hex];
    the protocol is a string that starts with [UDP] for a UDP endpoint
    and with [TCP] otherwise; both ports are integers; and the pid, owner
    and creation time are never falsy: a truthy accessor result is passed
    on unchanged and anything else has become [UnreadableValue]. *)
Theorem yielded_row_columns (flag : Py.val) (o : netw_obj) (r : row) :
  r ∈ yielded (_generator_body flag o) ->
  col_Offset r = Py.Hex (vol_offset o) /\
  (exists proto, col_Proto r = Py.PyStr proto /\
     String.prefix (if isinstance_UDP_ENDPOINT o then "UDP" else "TCP") proto = true) /\
  (exists port, col_LocalPort r = Py.PyInt port) /\
  (exists port, col_ForeignPort r = Py.PyInt port) /\
  (Py.truthy (col_PID r) = true /\ Py.truthy (col_Owner r) = true /\
   Py.truthy (col_Created r) = true) /\
  (Py.truthy (get_owner_pid o) = true -> col_PID r = get_owner_pid o) /\
  (Py.truthy (get_owner_procname o) = true -> col_Owner r = get_owner_procname o) /\
  (Py.truthy (get_create_time o) = true -> col_Created r = get_create_time o).
Proof using Type.
  clear win10_x64_extra_fresh AF_INET_neq_AF_INET6.
  intros Hin. split; [exact (row_offset flag o r Hin)|].
  rewrite yielded_body, yielded_classify in Hin.
  destruct (passes_gate flag o); [|apply elem_of_nil in Hin; destruct Hin].
  assert (Hcols : (exists proto, col_Proto r = Py.PyStr proto /\
                     String.prefix (if isinstance_UDP_ENDPOINT o then "UDP" else "TCP")
                       proto = true) /\
                  (exists port, col_LocalPort r = Py.PyInt port) /\
                  (exists port, col_ForeignPort r = Py.PyInt port) /\
                  col_PID r = Py.or (get_owner_pid o) Py.UnreadableValue /\
                  col_Owner r = Py.or (get_owner_procname o) Py.UnreadableValue /\
                  col_Created r = Py.or (get_create_time o) Py.UnreadableValue).
  { destruct (isinstance_UDP_ENDPOINT o).
    { apply list_elem_of_fmap in Hin as ([[ver laddr] raddr] & -> & _).
      unfold udp_row.
      cbn [col_Proto col_LocalPort col_ForeignPort col_PID col_Owner col_Created].
      split; [exists ("UDP" +:+ ver); split; [reflexivity | apply prefix_append]|].
      split; [eexists; reflexivity|]. split; [eexists; reflexivity|].
      repeat split. }
    destruct (isinstance_TCP_ENDPOINT o).
    { apply list_elem_of_singleton in Hin as ->. unfold tcp_endpoint_row.
      cbn [col_Proto col_LocalPort col_ForeignPort col_PID col_Owner col_Created].
      split; [eexists; split; [reflexivity|]|].
      { destruct (Py.eq_int _ AF_INET); [reflexivity|].
        destruct (Py.eq_int _ AF_INET6); reflexivity. }
      split; [eexists; reflexivity|]. split; [eexists; reflexivity|].
      repeat split. }
    destruct (isinstance_TCP_LISTENER o).
    { apply list_elem_of_fmap in Hin as ([[ver laddr] raddr] & -> & _).
      unfold tcp_listener_row.
      cbn [col_Proto col_LocalPort col_ForeignPort col_PID col_Owner col_Created].
      split; [exists ("TCP" +:+ ver); split; [reflexivity | apply prefix_append]|].
      split; [eexists; reflexivity|]. split; [eexists; reflexivity|].
      repeat split. }
    apply elem_of_nil in Hin. destruct Hin. }
  destruct Hcols as (Hproto & Hlport & Hfport & -> & -> & ->).
  repeat split; try assumption; try apply truthy_or_unreadable;
    apply or_truthy.
Qed.

(** X11. The choice rests on the architecture, the major version and one
    more number only: the build for a kernel 10.x, where
    [NtMinorVersion] plays no part, and [NtMinorVersion] for a kernel
    6.x, where the build plays no part. Two Intel images that agree on
    these get the same outcome. *)
Theorem determine_tcpip_version_reads (self self' : plugin) :
  layer_isinstance_Intel self = true ->
  layer_isinstance_Intel self' = true ->
  symbol_table_is_64bit self = symbol_table_is_64bit self' ->
  NtMajorVersion (kuser self) = NtMajorVersion (kuser self') ->
  (NtMajorVersion (kuser self) = 10 ->
   MinorVersion (vers self) = MinorVersion (vers self')) ->
  (NtMajorVersion (kuser self) = 6 ->
   NtMinorVersion (kuser self) = NtMinorVersion (kuser self')) ->
  determine_tcpip_version self = determine_tcpip_version self'.
Proof using Type.
  clear win10_x64_extra_fresh AF_INET_neq_AF_INET6.
  intros Hintel Hintel' Harch Hmajor Hbuild Hminor.
  destruct (Z.eq_dec (NtMajorVersion (kuser self)) 10) as [H10|H10].
  - rewrite (determine_major_10 self Hintel H10).
    rewrite (determine_major_10 self' Hintel') by congruence.
    unfold arch. rewrite <- Harch, <- (Hbuild H10). reflexivity.
  - destruct (Z.eq_dec (NtMajorVersion (kuser self)) 6) as [H6|H6].
    + rewrite (determine_major_6 self Hintel H6).
      rewrite (determine_major_6 self' Hintel') by congruence.
      unfold arch. rewrite <- Harch, <- (Hminor H6). reflexivity.
    + rewrite (determine_major_other self Hintel H10 H6).
      rewrite (determine_major_other self' Hintel') by congruence.
      reflexivity.
Qed.

(** X12. In the row of a TCP endpoint the ports are the object's
    [LocalPort] and [RemotePort], and each address is the accessor's
    result when that is truthy and [UnreadableValue] when it is falsy
    ([None] or an empty string). *)
Theorem tcp_endpoint_addresses (flag : Py.val) (o : netw_obj) (r : row) :
  isinstance_UDP_ENDPOINT o = false ->
  isinstance_TCP_ENDPOINT o = true ->
  r ∈ yielded (_generator_body flag o) ->
  col_LocalPort r = Py.PyInt (LocalPort o) /\
  col_ForeignPort r = Py.PyInt (RemotePort o) /\
  (Py.truthy (get_local_address o) = true -> col_LocalAddr r = get_local_address o) /\
  (Py.truthy (get_local_address o) = false -> col_LocalAddr r = Py.UnreadableValue) /\
  (Py.truthy (get_remote_address o) = true ->
   col_ForeignAddr r = get_remote_address o) /\
  (Py.truthy (get_remote_address o) = false ->
   col_ForeignAddr r = Py.UnreadableValue).
Proof using Type.
  clear win10_x64_extra_fresh AF_INET_neq_AF_INET6.
  intros Hudp Htcpe Hin.
  rewrite yielded_body, yielded_classify, Hudp, Htcpe in Hin.
  destruct (passes_gate flag o); [|apply elem_of_nil in Hin; destruct Hin].
  apply list_elem_of_singleton in Hin as ->. unfold tcp_endpoint_row.
  cbn [col_LocalPort col_ForeignPort col_LocalAddr col_ForeignAddr].
  repeat split; first [apply or_truthy | apply or_falsy].
Qed.

(** X13. A UDP endpoint or a TCP listener that gets past the validity
    gate yields one row per socket of [dual_stack_sockets()], in order,
    with the socket's version after the transport name and the socket's
    local address; the foreign address is [*] for UDP and the socket's
    remote address for a listener. An object whose method yields no
    socket produces no row, in either mode. *)
Theorem one_row_per_socket (flag : Py.val) (o : netw_obj) :
  passes_gate flag o = true ->
  isinstance_UDP_ENDPOINT o = true \/
  (isinstance_TCP_ENDPOINT o = false /\ isinstance_TCP_LISTENER o = true) ->
  let rows := yielded (_generator_body flag o) in
  let socks := dual_stack_sockets o in
  let transport := if isinstance_UDP_ENDPOINT o then "UDP" else "TCP" in
  length rows = length socks /\
  col_Proto <$> rows
  = (fun s : string * Py.val * Py.val => Py.PyStr (transport +:+ s.1.1)) <$> socks /\
  col_LocalAddr <$> rows = (fun s : string * Py.val * Py.val => s.1.2) <$> socks /\
  col_ForeignAddr <$> rows
  = (fun s : string * Py.val * Py.val =>
       if isinstance_UDP_ENDPOINT o then Py.PyStr "*" else s.2) <$> socks /\
  (socks = [] -> rows = []).
Proof using Type.
  clear win10_x64_extra_fresh AF_INET_neq_AF_INET6.
  intros Hgate Hkind rows socks transport. subst rows socks transport.
  rewrite yielded_body, yielded_classify, Hgate.
  destruct (isinstance_UDP_ENDPOINT o) eqn:Hudp.
  - rewrite length_fmap, <- !list_fmap_compose.
    repeat split; try (apply fmap_ext_all; intros [[ver laddr] raddr]; reflexivity).
    intros ->. reflexivity.
  - destruct Hkind as [Hk|[-> ->]]; [discriminate Hk|].
    rewrite length_fmap, <- !list_fmap_compose.
    repeat split; try (apply fmap_ext_all; intros [[ver laddr] raddr]; reflexivity).
    intros ->. reflexivity.
Qed.

End NetScan.

(** *** The theorems at the sample images and candidates *)

(** The win7 x64 image gets the win7 x64 symbol file. *)
Lemma determine_tcpip_version_win7_x64 :
  fst <$> Py.value (determine_tcpip_version Sample.class_types
                      Sample.win10_x64_extra Sample.win7_x64)
  = Some "netscan-win7-x64".
Proof.
  pose proof (determine_tcpip_version_decision_table
                Sample.class_types Sample.win10_x64_extra Sample.win7_x64 eq_refl)
    as Htable.
  cbv zeta in Htable. destruct Htable as (_ & _ & _ & _ & Hwin7 & _).
  exact (Hwin7 eq_refl eq_refl).
Defined.

(** The run on the Windows XP image ends in the [NameError] of the
    fallback branch. *)
Lemma determine_tcpip_version_winxp_raises :
  run Sample.BANG Sample.NONPAGED Sample.FREE Sample.AF_INET Sample.AF_INET6
    Sample.TCP_STATE_ENUM Sample.class_types Sample.win10_x64_extra Sample.winxp_x86
  = [Raises (Py.NameError "major_version")].
Proof.
  refine (proj2 (proj2 (determine_tcpip_version_fallback_raises
                          _ _ _ _ _ _ _ _ Sample.winxp_x86 eq_refl _ _)));
    vm_compute; discriminate.
Defined.

Lemma sample_extra_fresh : Sample.win10_x64_extra ∉ Sample.class_types.
Proof. apply (bool_decide_unpack _). vm_compute. exact I. Defined.

(** The win10 x64 image gets the extended class table. *)
Lemma win10_x64_class_types_selected_17763 :
  snd <$> Py.value (determine_tcpip_version Sample.class_types
                      Sample.win10_x64_extra Sample.win10_17763_x64)
  = Some (win10_x64_class_types Sample.class_types Sample.win10_x64_extra).
Proof.
  pose proof (win10_x64_class_types_selected_iff
                Sample.class_types Sample.win10_x64_extra sample_extra_fresh
                Sample.win10_17763_x64 eq_refl) as Hsel.
  cbv zeta in Hsel. destruct Hsel as (_ & [_ Hsel] & _).
  apply Hsel. split; reflexivity.
Defined.




(** The [v6] row of the dual-stack UDP endpoint. *)
Lemma udp_endpoint_rows_sample :
  let r := udp_row Sample.udp_dual_stack ("v6", Py.PyStr "::", Py.PyStr "::") in
  col_State r = Py.PyStr "" /\
  col_ForeignAddr r = Py.PyStr "*" /\
  col_ForeignPort r = Py.PyInt 0.
Proof.
  apply (udp_endpoint_rows Sample.AF_INET Sample.AF_INET6 Sample.TCP_STATE_ENUM
           Py.PyNone Sample.udp_dual_stack _ eq_refl).
  vm_compute. do 2 constructor.
Defined.

(** The overwritten endpoint, surfaced in permissive mode: family 99 and
    state code 0xFF are in neither table. *)
Lemma tcp_endpoint_rows_corrupt_sample :
  let r := tcp_endpoint_row Sample.AF_INET Sample.AF_INET6 Sample.TCP_STATE_ENUM
             Sample.tcp_endpoint_corrupt in
  col_Proto r = Py.PyStr "TCPv?" /\ col_State r = Py.UnreadableValue.
Proof.
  intros r.
  assert (Hne : Sample.AF_INET <> Sample.AF_INET6) by (vm_compute; discriminate).
  assert (Hin : r ∈ yielded (_generator_body Sample.AF_INET Sample.AF_INET6
                               Sample.TCP_STATE_ENUM (Py.PyBool true)
                               Sample.tcp_endpoint_corrupt))
    by (vm_compute; constructor).
  destruct (tcp_endpoint_rows Sample.AF_INET Sample.AF_INET6 Sample.TCP_STATE_ENUM
              Hne (Py.PyBool true) Sample.tcp_endpoint_corrupt r eq_refl eq_refl Hin)
    as (_ & _ & _ & Hproto & Hstate & _).
  split; [apply Hproto; reflexivity | apply Hstate; vm_compute; reflexivity].
Defined.

(** The dual-stack listener gives a [TCPv4] and a [TCPv6] row. *)
Lemma tcp_listener_dual_stack_sample :
  exists r4 r6,
    yielded (_generator_body Sample.AF_INET Sample.AF_INET6 Sample.TCP_STATE_ENUM
               Py.PyNone Sample.tcp_listener_dual_stack) = [r4; r6] /\
    col_Proto r4 = Py.PyStr "TCPv4" /\
    col_Proto r6 = Py.PyStr "TCPv6" /\
    same_socket_fields r4 r6.
Proof.
  destruct (tcp_listener_and_dual_stack_rows
              Sample.AF_INET Sample.AF_INET6 Sample.TCP_STATE_ENUM
              Py.PyNone Sample.tcp_listener_dual_stack eq_refl) as [_ Hdual].
  destruct (Hdual eq_refl "TCP") as (r4 & r6 & Hrows & H4 & H6 & _ & Hsame).
  { right. repeat split. }
  exists r4, r6. repeat split; first [exact Hrows | exact H4 | exact H6 | apply Hsame].
Defined.

(** *** The sample run, evaluated *)

(** An endpoint object is an instance of the listener class as well; the
    endpoint branch is the one it takes. *)
Example endpoint_branch_sample :
  isinstance_TCP_LISTENER Sample.tcp_endpoint = true /\
  _generator_body Sample.AF_INET Sample.AF_INET6 Sample.TCP_STATE_ENUM
    Py.PyNone Sample.tcp_endpoint
  = [ Log (Found_netw_obj 0x7d62b010);
      Log (Found_TCP_ENDPOINT 0x7d62b010);
      Yield 0 {| col_Offset := Py.Hex 0x7d62b010;
                 col_Proto := Py.PyStr "TCPv4";
                 col_LocalAddr := Py.PyStr "10.0.2.15";
                 col_LocalPort := Py.PyInt 49170;
                 col_ForeignAddr := Py.PyStr "93.184.216.34";
                 col_ForeignPort := Py.PyInt 443;
                 col_State := Py.PyStr "ESTABLISHED";
                 col_PID := Py.UnreadableValue;
                 col_Owner := Py.UnreadableValue;
                 col_Created := Py.UnreadableValue |} ].
Proof. split; vm_compute; reflexivity. Qed.

(** Strict mode drops the one invalid candidate of the sample scan;
    permissive mode keeps it, with its unreadable state. *)
Example strict_and_permissive_sample :
  col_State <$> yielded (_generator_loop Sample.AF_INET Sample.AF_INET6
                           Sample.TCP_STATE_ENUM Py.PyNone Sample.candidates)
  = [ Py.PyStr "LISTENING"; Py.PyStr "LISTENING"; Py.PyStr "ESTABLISHED";
      Py.PyStr ""; Py.PyStr "" ] /\
  col_State <$> yielded (_generator_loop Sample.AF_INET Sample.AF_INET6
                           Sample.TCP_STATE_ENUM (Py.PyBool true) Sample.candidates)
  = [ Py.PyStr "LISTENING"; Py.PyStr "LISTENING"; Py.UnreadableValue;
      Py.PyStr "ESTABLISHED"; Py.PyStr ""; Py.PyStr "" ].
Proof. split; vm_compute; reflexivity. Qed.

Example constraints_sample :
  create_netscan_constraints Sample.BANG Sample.NONPAGED Sample.FREE
    Sample.win7_x64 "netscan1"
  = [ {| poolscanner.tag := b "TcpL";
         poolscanner.type_name := "netscan1!_TCP_LISTENER";
         poolscanner.size := (0x78, None);
         poolscanner.page_type := 6 |};
      {| poolscanner.tag := b "TcpE";
         poolscanner.type_name := "netscan1!_TCP_ENDPOINT";
         poolscanner.size := (0x320, None);
         poolscanner.page_type := 6 |};
      {| poolscanner.tag := b "UdpA";
         poolscanner.type_name := "netscan1!_UDP_ENDPOINT";
         poolscanner.size := (0x90, None);
         poolscanner.page_type := 6 |} ].
Proof. vm_compute. reflexivity. Qed.

Example win10_14393_x86_sample :
  determine_tcpip_version Sample.class_types Sample.win10_x64_extra
    Sample.win10_14393_x86
  = Py.Return ("netscan-win10-14393-x86", Sample.class_types).
Proof. vm_compute. reflexivity. Qed.

(** A kernel 6.4 leaves [filename] unbound: none of the four minor
    versions matches and the chain has no [else]. *)
Example major_6_minor_4_sample :
  determine_tcpip_version Sample.class_types Sample.win10_x64_extra
    (Sample.image 64 6 4 9841 Py.PyNone)
  = Py.Raise (Py.UnboundLocalError "filename").
Proof. vm_compute. reflexivity. Qed.

(** The whole run on the win7 x64 image, in strict mode: five rows, then
    the [AttributeError] of the object that has no [is_valid]. *)
Example run_win7_x64_sample :
  let tr := run Sample.BANG Sample.NONPAGED Sample.FREE Sample.AF_INET
              Sample.AF_INET6 Sample.TCP_STATE_ENUM Sample.class_types
              Sample.win10_x64_extra Sample.win7_x64 in
  length (yielded tr) = 5%nat /\
  last tr = Some (Raises (Py.AttributeError "is_valid")).
Proof. split; vm_compute; reflexivity. Qed.

(** *** The further properties at the sample images and candidates *)

(** The 14393 x86 image gets one of the x86 files. *)
Lemma determine_tcpip_version_filenames_sample :
  "netscan-win10-14393-x86" ∈ symbol_filenames false.
Proof.
  apply (determine_tcpip_version_filenames
           Sample.class_types Sample.win10_x64_extra Sample.win10_14393_x86
           "netscan-win10-14393-x86" Sample.class_types).
  vm_compute. reflexivity.
Defined.

(** With the Windows flag values the paged pool (1) is not admitted. *)
Lemma create_netscan_constraints_no_paged_sample :
  Z.land (Z.lor Sample.NONPAGED Sample.FREE) 1 = 0.
Proof.
  apply (create_netscan_constraints_page_type_only
           Sample.BANG Sample.NONPAGED Sample.FREE Sample.win7_x64 "netscan1" 1
           {| poolscanner.tag := b "TcpE";
              poolscanner.type_name := "netscan1!_TCP_ENDPOINT";
              poolscanner.size := (0x320, None);
              poolscanner.page_type := Z.lor Sample.NONPAGED Sample.FREE |}
           eq_refl eq_refl).
  vm_compute. do 2 constructor.
Defined.

(** The endpoint row of the sample scan belongs to a sample candidate. *)
Lemma yielded_rows_have_a_candidate_sample :
  exists o, o ∈ Sample.candidates /\
    passes_gate Py.PyNone o = true /\
    col_Offset (tcp_endpoint_row Sample.AF_INET Sample.AF_INET6
                  Sample.TCP_STATE_ENUM Sample.tcp_endpoint)
    = Py.Hex (vol_offset o).
Proof.
  destruct (yielded_rows_have_a_candidate
              Sample.AF_INET Sample.AF_INET6 Sample.TCP_STATE_ENUM Py.PyNone
              Sample.candidates 0
              (tcp_endpoint_row Sample.AF_INET Sample.AF_INET6
                 Sample.TCP_STATE_ENUM Sample.tcp_endpoint))
    as (_ & o & Ho & Hgate & _ & Hoff).
  { vm_compute. repeat constructor. }
  exists o. repeat split; assumption.
Defined.

(** The five strict rows of the sample scan are among the six permissive
    ones. *)
Lemma strict_rows_sublist_of_permissive_sample :
  yielded (_generator_loop Sample.AF_INET Sample.AF_INET6 Sample.TCP_STATE_ENUM
             Py.PyNone Sample.candidates)
    `sublist_of`
  yielded (_generator_loop Sample.AF_INET Sample.AF_INET6 Sample.TCP_STATE_ENUM
             (Py.PyBool true) Sample.candidates).
Proof.
  exact (proj1 (strict_rows_sublist_of_permissive
                  Sample.AF_INET Sample.AF_INET6 Sample.TCP_STATE_ENUM
                  Py.PyNone (Py.PyBool true) Sample.candidates eq_refl eq_refl)).
Defined.

(** The sample endpoint, whose owner accessors give 0, the empty string
    and [None], still has truthy owner columns. *)
Lemma yielded_row_columns_sample :
  Py.truthy (col_PID (tcp_endpoint_row Sample.AF_INET Sample.AF_INET6
                        Sample.TCP_STATE_ENUM Sample.tcp_endpoint)) = true.
Proof.
  destruct (yielded_row_columns
              Sample.AF_INET Sample.AF_INET6 Sample.TCP_STATE_ENUM Py.PyNone
              Sample.tcp_endpoint
              (tcp_endpoint_row Sample.AF_INET Sample.AF_INET6
                 Sample.TCP_STATE_ENUM Sample.tcp_endpoint))
    as (_ & _ & _ & _ & (Hpid & _) & _).
  { vm_compute. constructor. }
  exact Hpid.
Defined.

(** Windows 7 RTM and SP1 (builds 7600 and 7601) get the same outcome. *)
Lemma determine_tcpip_version_reads_sample :
  determine_tcpip_version Sample.class_types Sample.win10_x64_extra
    (Sample.image 64 6 1 7600 Py.PyNone)
  = determine_tcpip_version Sample.class_types Sample.win10_x64_extra
      Sample.win7_x64.
Proof.
  apply (determine_tcpip_version_reads Sample.class_types Sample.win10_x64_extra
           (Sample.image 64 6 1 7600 Py.PyNone) Sample.win7_x64
           eq_refl eq_refl eq_refl eq_refl);
    vm_compute; intros H; first [discriminate H | reflexivity].
Defined.

(** The overwritten endpoint: its remote address accessor gives [None]. *)
Lemma tcp_endpoint_addresses_sample :
  col_ForeignAddr (tcp_endpoint_row Sample.AF_INET Sample.AF_INET6
                     Sample.TCP_STATE_ENUM Sample.tcp_endpoint_corrupt)
  = Py.UnreadableValue.
Proof.
  destruct (tcp_endpoint_addresses
              Sample.AF_INET Sample.AF_INET6 Sample.TCP_STATE_ENUM (Py.PyBool true)
              Sample.tcp_endpoint_corrupt
              (tcp_endpoint_row Sample.AF_INET Sample.AF_INET6
                 Sample.TCP_STATE_ENUM Sample.tcp_endpoint_corrupt)
              eq_refl eq_refl)
    as (_ & _ & _ & _ & _ & Hremote).
  { vm_compute. constructor. }
  apply Hremote. reflexivity.
Defined.

(** The dual-stack UDP endpoint: two sockets, two rows. *)
Lemma one_row_per_socket_sample :
  col_Proto <$> yielded (_generator_body Sample.AF_INET Sample.AF_INET6
                           Sample.TCP_STATE_ENUM Py.PyNone Sample.udp_dual_stack)
  = [Py.PyStr "UDPv4"; Py.PyStr "UDPv6"].
Proof.
  pose proof (one_row_per_socket
                Sample.AF_INET Sample.AF_INET6 Sample.TCP_STATE_ENUM Py.PyNone
                Sample.udp_dual_stack eq_refl (or_introl eq_refl)) as Hrows.
  cbv zeta in Hrows. destruct Hrows as (_ & Hproto & _).
  rewrite Hproto. reflexivity.
Defined.

End NetScan.
